(** * veloq: the namespace bridge [veloq::] -> [veloqrs::]

    A shallow embedding of [modules/veloqrs/cpp/veloq.h].  The header
    declares two inline functions in [namespace veloq]; each one is a
    single call into [namespace veloqrs] whose [uint8_t] result is
    returned as it is.  The functions of [veloqrs] are declared in
    [veloqrs.h], which the header includes: they are taken as a
    parameter here, an arbitrary implementation acting on a world
    state of its own, each call of which returns a status.  The
    preprocessor lines of [veloq.h] and of
    [modules/veloqrs/ios/Veloqrs.h] are embedded further down. *)

From stdpp Require Import base decidable list gmap strings.
From Stdlib Require Import Strings.Byte.

Set Default Proof Using "Type".

(** ** C++ data *)

(** [uint8_t]: one of the 256 byte values. *)
Definition uint8_t : Type := byte.

#[global] Instance uint8_t_eq_dec : EqDecision uint8_t.
Proof.
  intros x y. destruct (Byte.eqb x y) eqn:E.
  - left. now apply Byte.byte_dec_bl.
  - right. intros ->. now rewrite (Byte.byte_dec_lb eq_refl) in E.
Defined.

(** [std::shared_ptr<T>]: either empty or pointing at a [T]. *)
Definition shared_ptr (T : Type) : Type := option T.

(** ** [namespace veloqrs]: the functions the bridge calls

    [Runtime] stands for the identity of a [jsi::Runtime] object (the
    functions take it by reference), [CallInvoker] for a
    [react::CallInvoker] object and [World] for everything an
    implementation of [veloqrs] may read and write, the runtimes'
    contents included. *)
Module veloqrs.

Record Impl (Runtime CallInvoker World : Type) : Type := {
  installRustCrate :
    Runtime -> shared_ptr CallInvoker -> World -> uint8_t * World;
  cleanupRustCrate :
    Runtime -> World -> uint8_t * World
}.
Arguments installRustCrate {Runtime CallInvoker World} _ _ _ _.
Arguments cleanupRustCrate {Runtime CallInvoker World} _ _ _.

(** A call into the namespace, with its actual arguments. *)
Variant Call (Runtime CallInvoker : Type) : Type :=
| InstallRustCrate (runtime : Runtime) (callInvoker : shared_ptr CallInvoker)
| CleanupRustCrate (runtime : Runtime).
Arguments InstallRustCrate {Runtime CallInvoker} _ _.
Arguments CleanupRustCrate {Runtime CallInvoker} _.

Definition perform {Runtime CallInvoker World}
    (impl : Impl Runtime CallInvoker World)
    (c : Call Runtime CallInvoker) (w : World) : uint8_t * World :=
  match c with
  | InstallRustCrate runtime callInvoker =>
      installRustCrate impl runtime callInvoker w
  | CleanupRustCrate runtime => cleanupRustCrate impl runtime w
  end.

End veloqrs.

(** ** Computations of bridge code

    What a function of [namespace veloq] can do besides returning: call
    into [veloqrs], and read or write namespace-scope state of the
    bridge, of some type [Local].  [veloq.h] declares no such state;
    the two accesses are part of the language, not of the header. *)
Inductive Prog (Runtime CallInvoker Local A : Type) : Type :=
| Ret (a : A)
| Call (c : veloqrs.Call Runtime CallInvoker)
       (k : uint8_t -> Prog Runtime CallInvoker Local A)
| Load (k : Local -> Prog Runtime CallInvoker Local A)
| Store (l : Local) (k : Prog Runtime CallInvoker Local A).
Arguments Ret {Runtime CallInvoker Local A} _.
Arguments Call {Runtime CallInvoker Local A} _ _.
Arguments Load {Runtime CallInvoker Local A} _.
Arguments Store {Runtime CallInvoker Local A} _ _.

Fixpoint bind {Runtime CallInvoker Local A B}
    (p : Prog Runtime CallInvoker Local A)
    (f : A -> Prog Runtime CallInvoker Local B)
    : Prog Runtime CallInvoker Local B :=
  match p with
  | Ret a => f a
  | Call c k => Call c (fun s => bind (k s) f)
  | Load k => Load (fun l => bind (k l) f)
  | Store l k => Store l (bind k f)
  end.

Notation "'let*' x ':=' p 'in' q" := (bind p (fun x => q))
  (at level 10, x name, p at level 100, q at level 200).

(** ** [namespace veloq]: the header *)
Module veloq.
Section Header.
Context {Runtime CallInvoker Local : Type}.

(** [return veloqrs::installRustCrate(runtime, callInvoker);] *)
Definition installRustCrate (runtime : Runtime)
    (callInvoker : shared_ptr CallInvoker)
    : Prog Runtime CallInvoker Local uint8_t :=
  Call (veloqrs.InstallRustCrate runtime callInvoker) Ret.

(** [return veloqrs::cleanupRustCrate(runtime);] *)
Definition cleanupRustCrate (runtime : Runtime)
    : Prog Runtime CallInvoker Local uint8_t :=
  Call (veloqrs.CleanupRustCrate runtime) Ret.

End Header.
End veloq.

(** ** Running a computation

    The process state is the bridge's namespace-scope state and the
    world of [veloqrs].  A run gives the returned value, the state left
    behind and the calls made into [veloqrs], oldest first. *)
Record Process (Local World : Type) : Type := {
  bridge_state : Local;
  world : World
}.
Arguments Build_Process {Local World} _ _.
Arguments bridge_state {Local World} _.
Arguments world {Local World} _.

Record Outcome (Runtime CallInvoker Local World A : Type) : Type := {
  result : A;
  final : Process Local World;
  delegate_log : list (veloqrs.Call Runtime CallInvoker)
}.
Arguments Build_Outcome {Runtime CallInvoker Local World A} _ _ _.
Arguments result {Runtime CallInvoker Local World A} _.
Arguments final {Runtime CallInvoker Local World A} _.
Arguments delegate_log {Runtime CallInvoker Local World A} _.

Fixpoint run {Runtime CallInvoker Local World A}
    (impl : veloqrs.Impl Runtime CallInvoker World)
    (p : Prog Runtime CallInvoker Local A)
    (st : Process Local World)
    : Outcome Runtime CallInvoker Local World A :=
  match p with
  | Ret a => Build_Outcome a st []
  | Call c k =>
      let '(s, w) := veloqrs.perform impl c (world st) in
      let o := run impl (k s) (Build_Process (bridge_state st) w) in
      Build_Outcome (result o) (final o) (c :: delegate_log o)
  | Load k => run impl (k (bridge_state st)) st
  | Store l k => run impl k (Build_Process l (world st))
  end.

(** A computation that makes no access to the bridge's own state. *)
Inductive stateless {Runtime CallInvoker Local A}
    : Prog Runtime CallInvoker Local A -> Prop :=
| stateless_ret a : stateless (Ret a)
| stateless_call c k :
    (forall s, stateless (k s)) -> stateless (Call c k).

(** ** The host's side

    The two operations the host module loader reaches through the
    header, and a host that issues a sequence of them one after the
    other, collecting the status codes. *)
Variant HostOp (Runtime CallInvoker : Type) : Type :=
| install (H : Runtime) (invoker : shared_ptr CallInvoker)
| cleanup (H : Runtime).
Arguments install {Runtime CallInvoker} _ _.
Arguments cleanup {Runtime CallInvoker} _.

Definition bridge {Runtime CallInvoker Local}
    (op : HostOp Runtime CallInvoker)
    : Prog Runtime CallInvoker Local uint8_t :=
  match op with
  | install H invoker => veloq.installRustCrate H invoker
  | cleanup H => veloq.cleanupRustCrate H
  end.

Fixpoint host {Runtime CallInvoker Local}
    (ops : list (HostOp Runtime CallInvoker))
    : Prog Runtime CallInvoker Local (list uint8_t) :=
  match ops with
  | [] => Ret []
  | op :: ops' =>
      let* s := bridge op in
      let* ss := host ops' in
      Ret (s :: ss)
  end.

(** The call into [veloqrs] that an operation stands for. *)
Definition forwarded {Runtime CallInvoker}
    (op : HostOp Runtime CallInvoker) : veloqrs.Call Runtime CallInvoker :=
  match op with
  | install H invoker => veloqrs.InstallRustCrate H invoker
  | cleanup H => veloqrs.CleanupRustCrate H
  end.

(** ** What the specification names and the header does not *)

(** Modelled from the spec: the status codes of its sections 6 and 7,
    which [veloq.h] does not declare.  The spec fixes 0 for success and
    asks for a distinct nonzero value per error kind without giving the
    values, so an assignment of values is any [StatusCodes]. *)
Definition Success : uint8_t := x00.

Variant ErrorKind : Type :=
| AlreadyInstalled
| NotInstalled
| InvalidArgument
| DelegateInstallFailed
| DelegateCleanupFailed.

Record StatusCodes : Type := {
  code : ErrorKind -> uint8_t;
  code_nonzero : forall e, code e <> Success;
  code_distinct : forall e1 e2, code e1 = code e2 -> e1 = e2
}.

(** Modelled from the spec: the InstallationRecord of its section 3,
    which [veloq.h] does not declare: a record is created when install
    succeeds for a handle and removed when cleanup succeeds for that
    handle.  The ledger lists the records in existence, newest first,
    one entry per record, as those two events produce them. *)
Definition record_step {Runtime CallInvoker} `{EqDecision Runtime}
    (op : HostOp Runtime CallInvoker) (status : uint8_t)
    (ledger : list Runtime) : list Runtime :=
  match op with
  | install H _ =>
      if decide (status = Success) then H :: ledger else ledger
  | cleanup H =>
      if decide (status = Success)
      then filter (fun H' => H' <> H) ledger
      else ledger
  end.

(** The number of records in existence for a handle. *)
Definition records_for {Runtime} `{EqDecision Runtime}
    (H : Runtime) (ledger : list Runtime) : nat :=
  length (filter (fun H' => H' = H) ledger).


(** ** The system the host drives: the process and the ledger *)
Record System (Runtime Local World : Type) : Type := {
  process : Process Local World;
  ledger : list Runtime
}.
Arguments Build_System {Runtime Local World} _ _.
Arguments process {Runtime Local World} _.
Arguments ledger {Runtime Local World} _.

Section Driving.
Context {Runtime CallInvoker Local World : Type} `{EqDecision Runtime}.
Variable impl : veloqrs.Impl Runtime CallInvoker World.

(** The status code an operation returns to the host in a state. *)
Definition status_of (op : HostOp Runtime CallInvoker)
    (sys : System Runtime Local World) : uint8_t :=
  result (run impl (bridge op) (process sys)).

Definition sys_step (op : HostOp Runtime CallInvoker)
    (sys : System Runtime Local World) : System Runtime Local World :=
  let o := run impl (bridge op) (process sys) in
  Build_System (final o) (record_step op (result o) (ledger sys)).

Definition sys_steps (ops : list (HostOp Runtime CallInvoker))
    (sys : System Runtime Local World) : System Runtime Local World :=
  foldl (fun s op => sys_step op s) sys ops.

End Driving.

(** ** The registry and the state machine the specification describes *)
Section Specified.
Context {Runtime CallInvoker Local World : Type} `{EqDecision Runtime}.





Variable codes : StatusCodes.
Variable impl : veloqrs.Impl Runtime CallInvoker World.





End Specified.

(** ** Implementations of [veloqrs] used as concrete inputs *)
Module Sample.

(** Every call succeeds; the world counts the calls received. *)
Definition always_ok : veloqrs.Impl nat nat nat := {|
  veloqrs.installRustCrate := fun _ _ w => (Success, S w);
  veloqrs.cleanupRustCrate := fun _ w => (Success, S w)
|}.

(** Installation fails with status [s] and changes nothing. *)
Definition failing (s : uint8_t) : veloqrs.Impl nat nat nat := {|
  veloqrs.installRustCrate := fun _ _ w => (s, w);
  veloqrs.cleanupRustCrate := fun _ w => (Success, w)
|}.

(** An implementation that keeps the list of runtimes it is installed
    in, refuses (status 1) to install twice and refuses (status 2) to
    clean up what is not installed. *)
Definition exclusive : veloqrs.Impl nat nat (list nat) := {|
  veloqrs.installRustCrate := fun r _ w =>
    if decide (r ∈ w) then (x01, w) else (Success, r :: w);
  veloqrs.cleanupRustCrate := fun r w =>
    if decide (r ∈ w) then (Success, filter (fun r' => r' <> r) w)
    else (x02, w)
|}.

(** The same behaviour over another world: a flag per runtime. *)
Definition exclusive_by_flag : veloqrs.Impl nat nat (nat -> bool) := {|
  veloqrs.installRustCrate := fun (r : nat) _ (f : nat -> bool) =>
    if f r then (x01, f)
    else (Success, fun r' => if decide (r' = r) then true else f r');
  veloqrs.cleanupRustCrate := fun (r : nat) (f : nat -> bool) =>
    if f r
    then (Success, fun r' => if decide (r' = r) then false else f r')
    else (x02, f)
|}.

(** [#undef VELOQ_H] between two inclusions. *)
Definition undef_guard (defined : gset string) : gset string :=
  defined ∖ {["VELOQ_H"]}.

(** An included file that defines a guard macro of its own and
    undefines nothing. *)
Definition guarded_header (path : string) (defined : gset string)
    : gset string :=
  {["VELOQRS_H"]} ∪ defined.

(** An assignment of status codes: the error kinds numbered from 1
    in the order the specification lists them. *)
Definition codes : StatusCodes := {|
  code := fun e =>
    match e with
    | AlreadyInstalled => x01
    | NotInstalled => x02
    | InvalidArgument => x03
    | DelegateInstallFailed => x04
    | DelegateCleanupFailed => x05
    end;
  code_nonzero := ltac:(by intros []);
  code_distinct := ltac:(by intros [] [])
|}.

(** A process with no bridge state, and a system with no record. *)
Definition fresh {World} (w : World) : Process unit World :=
  Build_Process tt w.

Definition boot {World} (w : World) : System nat unit World :=
  Build_System (fresh w) [].

End Sample.

(** ** Sessions seen from [veloqrs] *)

(** The entry points of [veloqrs] called directly, one call after the
    other, with no bridge in between: the statuses returned and the
    world left behind. *)
Fixpoint direct {Runtime CallInvoker World}
    (impl : veloqrs.Impl Runtime CallInvoker World)
    (calls : list (veloqrs.Call Runtime CallInvoker)) (w : World)
    : list uint8_t * World :=
  match calls with
  | [] => ([], w)
  | c :: calls' =>
      let '(s, w1) := veloqrs.perform impl c w in
      let '(ss, w2) := direct impl calls' w1 in
      (s :: ss, w2)
  end.

(** The runtime an operation of the host names, and the runtime a call
    into [veloqrs] is made on. *)
Definition handle_of {Runtime CallInvoker}
    (op : HostOp Runtime CallInvoker) : Runtime :=
  match op with
  | install H _ => H
  | cleanup H => H
  end.

Definition runtime_of {Runtime CallInvoker}
    (c : veloqrs.Call Runtime CallInvoker) : Runtime :=
  match c with
  | veloqrs.InstallRustCrate runtime _ => runtime
  | veloqrs.CleanupRustCrate runtime => runtime
  end.

(** ** The two headers as the preprocessor reads them

    A header is read against the set of macros defined so far and
    contributes lines to the translation unit.  What an included file
    does to the defined macros is not in these sources: it is the
    parameter [header], from the file's path and the macros defined
    before it to the macros defined after it. *)
Variant Line : Type :=
| include_ (path : string)
| import_ (path : string)
| using_namespace (ns used : string)
| inline_function (ns name : string)
| interface (name super : string) (protocols : list string)
| end_
| replaced (identifiers : list string).

#[global] Instance Line_eq_dec : EqDecision Line.
Proof. solve_decision. Defined.

(** A source line with the identifiers it is written with.  When none
    of them is a macro where the line stands, the line reaches the
    translation unit as written; otherwise macro replacement applies
    to it, and what it makes of the line is not followed: the line is
    kept as [replaced], with its identifiers. *)
Definition as_written (identifiers : list string) (line : Line)
    (defined : gset string) : Line :=
  if decide (Forall (fun i => i ∉ defined) identifiers) then line
  else replaced identifiers.

(** [modules/veloqrs/cpp/veloq.h]: everything sits between
    [#ifndef VELOQ_H] and [#endif]; inside, [#define VELOQ_H], the
    include of [veloqrs.h] and [namespace veloq] with its using
    directive and its two inline functions. *)
Definition veloq_h (header : string -> gset string -> gset string)
    (defined : gset string) : list Line * gset string :=
  if decide ("VELOQ_H" ∈ defined) then ([], defined)
  else
    let defined1 := {["VELOQ_H"]} ∪ defined in
    let defined2 := header "veloqrs.h" defined1 in
    ([include_ "veloqrs.h";
      as_written ["namespace"; "veloq"; "using"; "facebook"]
        (using_namespace "veloq" "facebook") defined2;
      as_written ["inline"; "uint8_t"; "installRustCrate"; "jsi"; "Runtime";
                  "runtime"; "std"; "shared_ptr"; "react"; "CallInvoker";
                  "callInvoker"; "return"; "veloqrs"]
        (inline_function "veloq" "installRustCrate") defined2;
      as_written ["inline"; "uint8_t"; "cleanupRustCrate"; "jsi"; "Runtime";
                  "runtime"; "return"; "veloqrs"]
        (inline_function "veloq" "cleanupRustCrate") defined2],
     defined2).

(** A translation unit, as far as [veloq.h] goes: the places where it
    reaches [veloq.h], directly or through another file, and between
    them whatever else happens to the defined macros ([#define],
    [#undef], other files).  Only the lines of [veloq.h] are
    collected. *)
Variant Directive : Type :=
| reach_veloq_h
| elsewhere (effect : gset string -> gset string).

Fixpoint translation_unit (header : string -> gset string -> gset string)
    (unit : list Directive) (defined : gset string)
    : list Line * gset string :=
  match unit with
  | [] => ([], defined)
  | reach_veloq_h :: unit' =>
      let '(lines1, defined1) := veloq_h header defined in
      let '(lines2, defined2) := translation_unit header unit' defined1 in
      (lines1 ++ lines2, defined2)
  | elsewhere effect :: unit' =>
      translation_unit header unit' (effect defined)
  end.

(** A directive that leaves [VELOQ_H] defined when it finds it so. *)
Definition keeps_guard (d : Directive) : Prop :=
  match d with
  | reach_veloq_h => True
  | elsewhere effect =>
      forall defined, "VELOQ_H" ∈ defined -> "VELOQ_H" ∈ effect defined
  end.

(** [modules/veloqrs/ios/Veloqrs.h]: the import of [cpp/veloqrs.h]
    under [#ifdef __cplusplus]; the import of [React/RCTBridgeModule.h];
    then, under [#ifdef RCT_NEW_ARCH_ENABLED], the import of
    [ReactCommon/RCTTurboModule.h] and the interface line with two
    protocols, and under [#else] the interface line with one; last,
    [@end]. *)
Definition Veloqrs_h (header : string -> gset string -> gset string)
    (defined : gset string) : list Line * gset string :=
  let '(lines1, defined1) :=
    if decide ("__cplusplus" ∈ defined)
    then ([import_ "cpp/veloqrs.h"], header "cpp/veloqrs.h" defined)
    else ([], defined) in
  let defined2 := header "React/RCTBridgeModule.h" defined1 in
  let '(lines3, defined3) :=
    if decide ("RCT_NEW_ARCH_ENABLED" ∈ defined2)
    then
      let defined3 := header "ReactCommon/RCTTurboModule.h" defined2 in
      ([import_ "ReactCommon/RCTTurboModule.h";
        as_written ["interface"; "Veloqrs"; "NSObject"; "RCTBridgeModule";
                    "RCTTurboModule"]
          (interface "Veloqrs" "NSObject"
             ["RCTBridgeModule"; "RCTTurboModule"]) defined3],
       defined3)
    else
      ([as_written ["interface"; "Veloqrs"; "NSObject"; "RCTBridgeModule"]
          (interface "Veloqrs" "NSObject" ["RCTBridgeModule"]) defined2],
       defined2) in
  (lines1 ++ [import_ "React/RCTBridgeModule.h"] ++ lines3 ++
   [as_written ["end"] end_ defined3],
   defined3).

Definition is_import (l : Line) : bool :=
  match l with
  | import_ _ => true
  | _ => false
  end.

(** * Properties *)

Create HintDb veloq discriminated.

(** ** Running, in general *)
Section Running.
Context {Runtime CallInvoker Local World : Type}.
Variable impl : veloqrs.Impl Runtime CallInvoker World.

Abbreviation Prog' := (Prog Runtime CallInvoker Local).
Abbreviation Outcome' := (Outcome Runtime CallInvoker Local World).

(** Running [bind p f] is running [p], then [f] on what it returned. *)
Lemma run_bind {A B} (p : Prog' A) (f : A -> Prog' B) st :
  run impl (bind p f) st =
  let o1 := run impl p st in
  let o2 := run impl (f (result o1)) (final o1) in
  Build_Outcome (result o2) (final o2) (delegate_log o1 ++ delegate_log o2).
Proof.
  revert st. induction p as [a | c k IH | k IH | l k IH]; intros st; cbn.
  - by destruct (run impl (f a) st).
  - destruct (veloqrs.perform impl c (world st)) as [s w].
    by rewrite IH.
  - apply IH.
  - apply IH.
Qed.

(** One operation of the host is one call into [veloqrs]. *)
Lemma run_bridge (op : HostOp Runtime CallInvoker)
    (st : Process Local World) :
  run impl (bridge op) st =
  Build_Outcome
    (veloqrs.perform impl (forwarded op) (world st)).1
    (Build_Process (bridge_state st)
       (veloqrs.perform impl (forwarded op) (world st)).2)
    [forwarded op].
Proof.
  destruct op; cbn;
    match goal with |- context [let '(_, _) := ?x in _] => by destruct x end.
Qed.

Lemma stateless_bind {A B} (p : Prog' A) (f : A -> Prog' B) :
  stateless p -> (forall a, stateless (f a)) -> stateless (bind p f).
Proof.
  intros Hp Hf. induction Hp as [a | c k _ IH]; cbn.
  - apply Hf.
  - constructor. apply IH.
Qed.

(** A stateless program leaves the bridge's state as it found it, and
    what it returns, what it does to the world and what it calls are
    the same whatever that state holds. *)
Lemma stateless_frame {A} (p : Prog' A) :
  stateless p ->
  forall l w,
    bridge_state (final (run impl p (Build_Process l w))) = l /\
    forall l',
      let o := run impl p (Build_Process l w) in
      let o' := run impl p (Build_Process l' w) in
      result o' = result o /\
      world (final o') = world (final o) /\
      delegate_log o' = delegate_log o.
Proof.
  induction 1 as [a | c k _ IH]; intros l w; cbn.
  - done.
  - destruct (veloqrs.perform impl c w) as [s w1]. cbn.
    destruct (IH s l w1) as [Hl Hindep]. split; [done|].
    intros l'. destruct (Hindep l') as (-> & -> & ->). done.
Qed.

Lemma stateless_veloq_install (runtime : Runtime)
    (callInvoker : shared_ptr CallInvoker) :
  stateless (veloq.installRustCrate (Local:=Local) runtime callInvoker).
Proof. repeat constructor. Qed.

Lemma stateless_veloq_cleanup (runtime : Runtime) :
  stateless (veloq.cleanupRustCrate
               (CallInvoker:=CallInvoker) (Local:=Local) runtime).
Proof. repeat constructor. Qed.

Lemma stateless_host (ops : list (HostOp Runtime CallInvoker)) :
  stateless (host (Local:=Local) ops).
Proof.
  induction ops as [|op ops IH]; cbn; [constructor|].
  apply stateless_bind.
  - destruct op; [apply stateless_veloq_install | apply stateless_veloq_cleanup].
  - intros s. apply stateless_bind; [done|]. intros; constructor.
Qed.

(** The host's first operation, then the rest from where it left. *)
Lemma run_host_cons (op : HostOp Runtime CallInvoker) ops
    (st : Process Local World) :
  run impl (host (op :: ops)) st =
  let d := veloqrs.perform impl (forwarded op) (world st) in
  let o := run impl (host ops) (Build_Process (bridge_state st) d.2) in
  Build_Outcome (d.1 :: result o) (final o) (forwarded op :: delegate_log o).
Proof.
  cbn [host]. rewrite run_bind, run_bridge.
  cbn [result final delegate_log]. rewrite run_bind. cbv zeta.
  cbn [run result final delegate_log app]. by rewrite app_nil_r.
Qed.

(** The host's calls reach [veloqrs] one for one and in order. *)
Lemma host_log (ops : list (HostOp Runtime CallInvoker))
    (st : Process Local World) :
  delegate_log (run impl (host ops) st) = map forwarded ops.
Proof.
  revert st. induction ops as [|op ops IH]; intros st; [done|].
  rewrite run_host_cons. cbn. by rewrite IH.
Qed.

Lemma host_statuses_length (ops : list (HostOp Runtime CallInvoker))
    (st : Process Local World) :
  length (result (run impl (host ops) st)) = length ops.
Proof.
  revert st. induction ops as [|op ops IH]; intros st; [done|].
  rewrite run_host_cons. cbn. by rewrite IH.
Qed.

(** A session through the bridge against the same calls made directly. *)
Lemma host_is_direct (ops : list (HostOp Runtime CallInvoker))
    (st : Process Local World) :
  let o := run impl (host ops) st in
  let d := direct impl (map forwarded ops) (world st) in
  result o = d.1 /\ world (final o) = d.2 /\
  bridge_state (final o) = bridge_state st.
Proof.
  revert st. induction ops as [|op ops IH]; intros st; [done|].
  cbv zeta. rewrite run_host_cons. cbn -[host run].
  destruct (veloqrs.perform impl (forwarded op) (world st)) as [s w1]. cbn -[host run].
  specialize (IH (Build_Process (bridge_state st) w1)). cbv zeta in IH.
  cbn [world bridge_state] in IH.
  destruct (direct impl (map forwarded ops) w1) as [ss w2].
  destruct IH as (-> & -> & ->). done.
Qed.

End Running.

#[export] Hint Resolve stateless_veloq_install stateless_veloq_cleanup
  stateless_host : veloq.

(** ** The header as a facade *)
Section Facade.
Context {Runtime CallInvoker Local World : Type}.
Implicit Types (runtime : Runtime) (callInvoker : shared_ptr CallInvoker).
Implicit Types (st : Process Local World).

(** C1: the bridge is a pure delegation facade.  For every
    implementation of [veloqrs], process state, runtime handle and
    call invoker, [veloq::installRustCrate(runtime, callInvoker)]
    returns exactly the status [veloqrs::installRustCrate(runtime,
    callInvoker)] returns in that state and leaves exactly the world
    it leaves, and the one call it makes carries both arguments
    unchanged; likewise [veloq::cleanupRustCrate(runtime)] and
    [veloqrs::cleanupRustCrate(runtime)]. *)
Theorem veloq_pure_delegation
    (impl : veloqrs.Impl Runtime CallInvoker World)
    st runtime callInvoker :
  let oi := run impl (veloq.installRustCrate runtime callInvoker) st in
  let di := veloqrs.installRustCrate impl runtime callInvoker (world st) in
  let oc := run impl (veloq.cleanupRustCrate runtime) st in
  let dc := veloqrs.cleanupRustCrate impl runtime (world st) in
  (result oi = di.1 /\ world (final oi) = di.2 /\
   delegate_log oi = [veloqrs.InstallRustCrate runtime callInvoker]) /\
  (result oc = dc.1 /\ world (final oc) = dc.2 /\
   delegate_log oc = [veloqrs.CleanupRustCrate runtime]).
Proof.
  cbn. split.
  - by destruct (veloqrs.installRustCrate impl runtime callInvoker (world st)).
  - by destruct (veloqrs.cleanupRustCrate impl runtime (world st)).
Qed.

(** C9: the bridge layer is stateless.  Whatever the bridge's own
    namespace-scope state holds, neither [veloq::installRustCrate]
    nor [veloq::cleanupRustCrate] writes it (it is the same after the
    call) or reads it (status, world and calls made are the same for
    any other content); each makes a single call into [veloqrs], and
    the world after the bridge call is the world that call left. *)
Theorem veloq_bridge_stateless
    (impl : veloqrs.Impl Runtime CallInvoker World)
    runtime callInvoker (l : Local) (w : World) :
  let frame (p : Prog Runtime CallInvoker Local uint8_t)
            (c : veloqrs.Call Runtime CallInvoker) :=
    let o := run impl p (Build_Process l w) in
    bridge_state (final o) = l /\
    delegate_log o = [c] /\
    world (final o) = (veloqrs.perform impl c w).2 /\
    forall l' : Local,
      let o' := run impl p (Build_Process l' w) in
      result o' = result o /\
      world (final o') = world (final o) /\
      delegate_log o' = delegate_log o in
  frame (veloq.installRustCrate runtime callInvoker)
        (veloqrs.InstallRustCrate runtime callInvoker) /\
  frame (veloq.cleanupRustCrate runtime)
        (veloqrs.CleanupRustCrate runtime).
Proof.
  cbv zeta. split.
  - destruct (stateless_frame impl
                (veloq.installRustCrate runtime callInvoker)
                ltac:(auto with veloq) l w)
      as [Hl Hindep].
    repeat split; try done; try apply Hindep.
    + cbn. by destruct (veloqrs.installRustCrate impl _ _ w).
    + cbn. by destruct (veloqrs.installRustCrate impl _ _ w).
  - destruct (stateless_frame impl
                (veloq.cleanupRustCrate runtime)
                ltac:(auto with veloq) l w)
      as [Hl Hindep].
    repeat split; try done; try apply Hindep.
    + cbn. by destruct (veloqrs.cleanupRustCrate impl _ w).
    + cbn. by destruct (veloqrs.cleanupRustCrate impl _ w).
Qed.

(** C10: the status a bridge operation returns depends on nothing
    but what [veloqrs] answers.  Take any two states of the process,
    each reached from anywhere by any sequence of earlier bridge
    calls, and the same operation with the same arguments in both:
    if the [veloqrs] entry point answers with equal status codes in
    the two, the bridge returns equal status codes. *)
Theorem veloq_status_ignores_history
    (impl : veloqrs.Impl Runtime CallInvoker World)
    (earlier1 earlier2 : list (HostOp Runtime CallInvoker))
    (st1 st2 : Process Local World) (op : HostOp Runtime CallInvoker) :
  let now1 := final (run impl (host earlier1) st1) in
  let now2 := final (run impl (host earlier2) st2) in
  (veloqrs.perform impl (forwarded op) (world now1)).1 =
  (veloqrs.perform impl (forwarded op) (world now2)).1 ->
  result (run impl (bridge op) now1) = result (run impl (bridge op) now2).
Proof.
  intros now1 now2 Heq. by rewrite !run_bridge.
Qed.

End Facade.

Lemma veloq_status_ignores_history_witness :
  let impl := Sample.exclusive in
  let earlier1 := [install 1 (Some 7)] in
  let earlier2 := [install 2 (Some 7); cleanup 2; install 1 None] in
  let op := install 3 (Some 7) in
  result (run impl (bridge op)
            (final (run impl (host earlier1) (Sample.fresh [])))) =
  result (run impl (bridge op)
            (final (run impl (host earlier2) (Sample.fresh [5])))).
Proof.
  intros impl earlier1 earlier2 op.
  apply (veloq_status_ignores_history impl earlier1 earlier2
           (Sample.fresh []) (Sample.fresh [5]) op).
  vm_compute. reflexivity.
Defined.

(** ** Records: what the ledger holds as the host drives the system *)
Section Records.
Context {Runtime CallInvoker Local World : Type} `{EqDecision Runtime}.
Variable impl : veloqrs.Impl Runtime CallInvoker World.
Implicit Types (sys : System Runtime Local World) (H : Runtime).
Implicit Types (op : HostOp Runtime CallInvoker).



Lemma status_of_forwarded op sys :
  status_of impl op sys =
  (veloqrs.perform impl (forwarded op) (world (process sys))).1.
Proof. unfold status_of. by rewrite run_bridge. Qed.

Lemma ledger_step op sys :
  ledger (sys_step impl op sys) =
  record_step op (status_of impl op sys) (ledger sys).
Proof. done. Qed.

End Records.

(** ** The registry of the specification *)
Section SpecifiedRegistry.
Context {Runtime CallInvoker Local World : Type} `{EqDecision Runtime}.
Variable codes : StatusCodes.
Variable impl : veloqrs.Impl Runtime CallInvoker World.
Implicit Types (sys : System Runtime Local World) (H : Runtime).
Implicit Types (registry : list Runtime).







End SpecifiedRegistry.


(** ** What the header does where the specification has a registry *)
Section NoRegistry.
Context {Runtime CallInvoker Local World : Type} `{EqDecision Runtime}.
Variable impl : veloqrs.Impl Runtime CallInvoker World.
Implicit Types (sys : System Runtime Local World) (H : Runtime).
Implicit Types (invoker : shared_ptr CallInvoker).

(** C3, as amended: for every handle H, a second [install(H, _)]
    with no cleanup in between is forwarded to the install entry
    point of [veloqrs] like the first, with the handle and the
    invoker unchanged; it returns the status that call returns, the
    world is the one that call leaves, and a record for H is added
    exactly when that status is Success. *)
Theorem second_install_is_forwarded sys H invoker1 invoker2 :
  let sys1 := sys_step impl (install H invoker1) sys in
  let o2 := run impl (veloq.installRustCrate H invoker2) (process sys1) in
  let d2 := veloqrs.installRustCrate impl H invoker2
              (world (process sys1)) in
  delegate_log o2 = [veloqrs.InstallRustCrate H invoker2] /\
  result o2 = d2.1 /\
  world (final o2) = d2.2 /\
  ledger (sys_step impl (install H invoker2) sys1) =
    if decide (d2.1 = Success) then H :: ledger sys1 else ledger sys1.
Proof.
  intros sys1 o2 d2.
  pose proof (run_bridge impl (install H invoker2) (process sys1)) as Hrun.
  cbn [bridge forwarded veloqrs.perform] in Hrun.
  subst o2 d2. rewrite ledger_step, status_of_forwarded.
  by rewrite Hrun.
Qed.

(** C4, as amended: for every handle H and whatever operations came
    before (none of them need be a successful [install(H, _)]),
    [cleanup(H)] is forwarded to the cleanup entry point of [veloqrs]
    with the handle unchanged and returns the status that call
    returns; the world is the one that call leaves. *)
Theorem cleanup_is_always_forwarded sys0 earlier H :
  let sys := sys_steps impl earlier sys0 in
  let o := run impl (veloq.cleanupRustCrate H) (process sys) in
  let d := veloqrs.cleanupRustCrate impl H (world (process sys)) in
  delegate_log o = [veloqrs.CleanupRustCrate H] /\
  result o = d.1 /\
  world (final o) = d.2.
Proof.
  intros sys o d.
  pose proof (run_bridge impl (cleanup H) (process sys)) as Hrun.
  cbn [bridge forwarded veloqrs.perform] in Hrun.
  subst o d. by rewrite Hrun.
Qed.

(** C5, as amended: if the install entry point of [veloqrs] reports
    failure for handle H, [install(H, _)] returns the status it
    reported, unchanged; the only call made is that install call (no
    cleanup is issued to undo anything), and the records are the ones
    there were before, so a handle that had no record has none. *)
Theorem failed_install_adds_no_record sys H invoker :
  let d := veloqrs.installRustCrate impl H invoker (world (process sys)) in
  let o := run impl (veloq.installRustCrate H invoker) (process sys) in
  let sys' := sys_step impl (install H invoker) sys in
  d.1 <> Success ->
  result o = d.1 /\
  delegate_log o = [veloqrs.InstallRustCrate H invoker] /\
  ledger sys' = ledger sys /\
  (H ∉ ledger sys -> H ∉ ledger sys').
Proof.
  intros d o sys' Hfail.
  pose proof (run_bridge impl (install H invoker) (process sys)) as Hrun.
  cbn [bridge forwarded veloqrs.perform] in Hrun.
  assert (ledger sys' = ledger sys) as Hl.
  { subst sys'. rewrite ledger_step, status_of_forwarded.
    cbn [forwarded veloqrs.perform record_step].
    by rewrite decide_False. }
  subst o. rewrite Hrun, Hl. done.
Qed.

(** C6, as amended: install validates nothing.  Called with an empty
    CallInvoker pointer it forwards the empty pointer to the install
    entry point of [veloqrs], returns the status that call returns
    and leaves the world that call leaves; the handle is a C++
    reference and has no null value. *)
Theorem empty_invoker_is_forwarded
    (st : Process Local World) (runtime : Runtime) :
  let o := run impl (veloq.installRustCrate runtime None) st in
  let d := veloqrs.installRustCrate impl runtime None (world st) in
  delegate_log o = [veloqrs.InstallRustCrate runtime None] /\
  result o = d.1 /\
  world (final o) = d.2.
Proof.
  intros o d.
  pose proof (run_bridge impl (install runtime None) st) as Hrun.
  cbn [bridge forwarded veloqrs.perform] in Hrun.
  subst o d. by rewrite Hrun.
Qed.

End NoRegistry.

(** C3, as stated, fails.  Input: [Sample.always_ok], [install(1, 7)]
    twice from a state with no record.  The second call reaches
    [veloqrs], changes the world, returns Success, which no assignment
    of status codes makes AlreadyInstalled, and leaves two records. *)
Lemma second_install_not_inert :
  let impl := Sample.always_ok in
  let sys1 := sys_step impl (install 1 (Some 7)) (Sample.boot 0) in
  let o2 := run impl (veloq.installRustCrate 1 (Some 7)) (process sys1) in
  let sys2 := sys_step impl (install 1 (Some 7)) sys1 in
  result o2 = Success /\
  (forall codes, result o2 <> code codes AlreadyInstalled) /\
  delegate_log o2 = [veloqrs.InstallRustCrate 1 (Some 7)] /\
  world (final o2) <> world (process sys1) /\
  records_for 1 (ledger sys2) = 2.
Proof.
  cbv zeta. split; [by vm_compute|]. split.
  - intros codes Heq. by apply (code_nonzero codes AlreadyInstalled).
  - split; [by vm_compute|]. split; by vm_compute.
Qed.

(** C4, as stated, fails.  Input: [Sample.always_ok], [cleanup(1)] as
    the first operation ever.  The call reaches [veloqrs], changes the
    world and returns Success, which no assignment of status codes
    makes NotInstalled. *)
Lemma cleanup_without_install_not_inert :
  let impl := Sample.always_ok in
  let st := Sample.fresh 0 in
  let o := run impl (veloq.cleanupRustCrate 1) st in
  result o = Success /\
  (forall codes, result o <> code codes NotInstalled) /\
  delegate_log o = [veloqrs.CleanupRustCrate 1] /\
  world (final o) <> world st.
Proof.
  cbv zeta. split; [by vm_compute|]. split.
  - intros codes Heq. by apply (code_nonzero codes NotInstalled).
  - split; by vm_compute.
Qed.

Lemma failed_install_adds_no_record_witness :
  let impl := Sample.failing x07 in
  let sys := Sample.boot 0 in
  let o := run impl (veloq.installRustCrate 1 (Some 7)) (process sys) in
  let sys' := sys_step impl (install 1 (Some 7)) sys in
  result o = x07 /\
  delegate_log o = [veloqrs.InstallRustCrate 1 (Some 7)] /\
  ledger sys' = ledger sys /\
  (1 ∉ ledger sys -> 1 ∉ ledger sys').
Proof.
  intros impl sys o sys'.
  apply (failed_install_adds_no_record impl sys 1 (Some 7)).
  vm_compute. discriminate.
Defined.

(** C5, as stated, fails.  Input: [install(1, 7)] from a state with no
    record, once with [Sample.failing 1] and once with
    [Sample.failing 2].  The two calls return 1 and 2, the statuses the
    implementations reported; no assignment of status codes makes both
    of them DelegateInstallFailed. *)
Lemma delegate_failure_not_translated :
  let oa := run (Sample.failing x01) (veloq.installRustCrate 1 (Some 7))
              (Sample.fresh 0) in
  let ob := run (Sample.failing x02) (veloq.installRustCrate 1 (Some 7))
              (Sample.fresh 0) in
  result oa = x01 /\
  result ob = x02 /\
  forall codes,
    ~ (result oa = code codes DelegateInstallFailed /\
       result ob = code codes DelegateInstallFailed).
Proof.
  cbv zeta. split; [by vm_compute|]. split; [by vm_compute|].
  intros codes [Ha Hb]. rewrite <- Hb in Ha. vm_compute in Ha. discriminate.
Qed.

(** C6, as stated, fails.  Input: [Sample.always_ok], [install(1, _)]
    with an empty CallInvoker pointer.  The call reaches [veloqrs] with
    the empty pointer, changes the world and returns Success, which no
    assignment of status codes makes InvalidArgument. *)
Lemma empty_invoker_not_rejected :
  let impl := Sample.always_ok in
  let st := Sample.fresh 0 in
  let o := run impl (veloq.installRustCrate 1 None) st in
  result o = Success /\
  (forall codes, result o <> code codes InvalidArgument) /\
  delegate_log o = [veloqrs.InstallRustCrate 1 None] /\
  world (final o) <> world st.
Proof.
  cbv zeta. split; [by vm_compute|]. split.
  - intros codes Heq. by apply (code_nonzero codes InvalidArgument).
  - split; by vm_compute.
Qed.

(** ** The installation cycle *)
Section Cycle.
Context {Runtime CallInvoker Local World : Type}.
Variable impl : veloqrs.Impl Runtime CallInvoker World.

(** C7, as amended: installation is a reusable cycle as far as the
    bridge goes.  For every handle H and every state, install(H, _),
    cleanup(H) and install(H, _) again are forwarded one after the
    other, the third like the first, and return the statuses the
    install, cleanup and install entry points of [veloqrs] return for
    H, each called in the world the call before left; so the three
    calls all return Success exactly when the opaque module reports
    success three times. *)
Theorem install_cleanup_install_statuses
    (st : Process Local World) (H : Runtime)
    (invoker1 invoker2 : shared_ptr CallInvoker) :
  let d1 := veloqrs.installRustCrate impl H invoker1 (world st) in
  let d2 := veloqrs.cleanupRustCrate impl H d1.2 in
  let d3 := veloqrs.installRustCrate impl H invoker2 d2.2 in
  let o := run impl (host [install H invoker1; cleanup H;
                           install H invoker2]) st in
  result o = [d1.1; d2.1; d3.1] /\
  (result o = [Success; Success; Success] <->
   d1.1 = Success /\ d2.1 = Success /\ d3.1 = Success) /\
  delegate_log o =
    [veloqrs.InstallRustCrate H invoker1; veloqrs.CleanupRustCrate H;
     veloqrs.InstallRustCrate H invoker2].
Proof.
  intros d1 d2 d3 o.
  assert (result o = [d1.1; d2.1; d3.1]) as Hr.
  { subst o.
    repeat (rewrite run_host_cons; cbv zeta;
            cbn [result world bridge_state forwarded veloqrs.perform]).
    done. }
  split; [done|]. split.
  - rewrite Hr. split.
    + intros Heq. by inversion Heq.
    + by intros (-> & -> & ->).
  - subst o. by rewrite host_log.
Qed.

End Cycle.

(** C7, as stated, fails.  Input: [Sample.failing 1], handle 1 with no
    record and nothing installed before, [install(1, 7)], [cleanup(1)],
    [install(1, 7)].  The statuses are 1, 0, 1, those of the
    implementation: the first and the third call do not return
    Success. *)
Lemma install_cycle_returns_delegate_failure :
  let impl := Sample.failing x01 in
  let sys0 := Sample.boot 0 in
  let o := run impl (host [install 1 (Some 7); cleanup 1;
                           install 1 (Some 7)]) (process sys0) in
  ledger sys0 = [] /\
  result o = [x01; Success; x01] /\
  result o <> [Success; Success; Success].
Proof.
  cbv zeta. split; [done|]. split; by vm_compute.
Qed.

(** ** Racing installs

    The header takes no lock and its functions have no step of their
    own between entry and the call into [veloqrs], so calls racing on
    one handle are told apart only by the order in which they reach
    [veloqrs]: a serialisation of the racers. *)
Section Racing.
Context {Runtime CallInvoker Local World : Type}.
Variable impl : veloqrs.Impl Runtime CallInvoker World.

(** C8, as amended: the bridge does not arbitrate racing installs.
    In whichever order the racing calls [install(H, _)] of several
    callers are serialised, every one of them is forwarded to the
    install entry point of [veloqrs], in that order and with its own
    invoker, so the entry point is invoked once per caller for H; and
    every caller is returned the status the entry point gave to its
    call: statuses and world are those of making these calls on
    [veloqrs] directly in that order. *)
Theorem racing_installs_all_forwarded
    (st : Process Local World) (H : Runtime)
    (invokers : list (shared_ptr CallInvoker))
    (order : list (HostOp Runtime CallInvoker)) :
  order ≡ₚ map (install H) invokers ->
  let o := run impl (host order) st in
  let d := direct impl (map forwarded order) (world st) in
  delegate_log o = map forwarded order /\
  delegate_log o ≡ₚ map (veloqrs.InstallRustCrate H) invokers /\
  length (delegate_log o) = length invokers /\
  result o = d.1 /\
  length (result o) = length invokers /\
  world (final o) = d.2.
Proof.
  intros Hperm o d. subst o d.
  destruct (host_is_direct impl order st) as (Hr & Hw & _).
  rewrite host_log, host_statuses_length.
  split; [done|]. split; [|split; [|split; [|split]]]; try done.
  - rewrite Hperm. by rewrite <- list_fmap_compose.
  - by rewrite Hperm, !length_map.
  - by rewrite Hperm, length_map.
Qed.

End Racing.

Lemma racing_installs_all_forwarded_witness :
  let order := [install 1 (Some 8); install 1 (Some 7)] in
  let o := run Sample.exclusive (host order) (Sample.fresh []) in
  let d := direct Sample.exclusive (map forwarded order) [] in
  delegate_log o = map forwarded order /\
  delegate_log o ≡ₚ
    map (veloqrs.InstallRustCrate 1) [Some 7; Some 8] /\
  length (delegate_log o) = length [Some 7; Some 8] /\
  result o = d.1 /\
  length (result o) = length [Some 7; Some 8] /\
  world (final o) = d.2.
Proof.
  apply (racing_installs_all_forwarded Sample.exclusive (Sample.fresh [])
           1 [Some 7; Some 8] [install 1 (Some 8); install 1 (Some 7)]).
  cbn. apply perm_swap.
Defined.

(** C8, as stated, fails.  Input: [Sample.always_ok], two callers
    racing with [install(1, 7)] and [install(1, 8)] from a state with
    no record.  In either order both callers are returned Success, the
    install entry point of [veloqrs] is invoked twice for handle 1, and
    two records for handle 1 result. *)
Lemma racing_installs_both_win :
  let impl := Sample.always_ok in
  let a := install 1 (Some 7) in
  let b := install 1 (Some 8) in
  let oab := run impl (host [a; b]) (Sample.fresh 0) in
  let oba := run impl (host [b; a]) (Sample.fresh 0) in
  (result oab = [Success; Success] /\
   delegate_log oab = [forwarded a; forwarded b] /\
   records_for 1 (ledger (sys_steps impl [a; b] (Sample.boot 0))) = 2) /\
  (result oba = [Success; Success] /\
   delegate_log oba = [forwarded b; forwarded a] /\
   records_for 1 (ledger (sys_steps impl [b; a] (Sample.boot 0))) = 2).
Proof.
  cbv zeta. by vm_compute.
Qed.

(** ** Whole sessions through the bridge *)
Section Sessions.
Context {Runtime CallInvoker Local World : Type}.
Variable impl : veloqrs.Impl Runtime CallInvoker World.
Implicit Types (ops : list (HostOp Runtime CallInvoker)).
Implicit Types (st : Process Local World).

(** X1: a session through the bridge is the session on [veloqrs]
    itself.  For any sequence of install and cleanup operations, the
    statuses the host collects and the world left behind are those of
    calling the corresponding [veloqrs] entry points directly, in the
    same order with the same arguments; the calls made are exactly
    these, one per operation whatever statuses came back before; and
    the bridge's own state is as it was. *)
Theorem bridge_session_is_direct_session ops st :
  let o := run impl (host ops) st in
  let d := direct impl (map forwarded ops) (world st) in
  result o = d.1 /\
  world (final o) = d.2 /\
  bridge_state (final o) = bridge_state st /\
  delegate_log o = map forwarded ops.
Proof.
  cbv zeta. destruct (host_is_direct impl ops st) as (Hr & Hw & Hb).
  by rewrite host_log.
Qed.

(** X3: the bridge never reaches a runtime the host did not name.  If
    no operation of a session names runtime H, no call into [veloqrs]
    made during the session is a call on H. *)
Theorem bridge_never_calls_on_unnamed_runtime ops st (H : Runtime) :
  Forall (fun op => handle_of op <> H) ops ->
  Forall (fun c => runtime_of c <> H) (delegate_log (run impl (host ops) st)).
Proof.
  intros Hops. rewrite host_log. rewrite Forall_fmap.
  eapply Forall_impl; [exact Hops|]. by intros [].
Qed.

End Sessions.

Lemma bridge_never_calls_on_unnamed_runtime_witness :
  Forall (fun c => runtime_of c <> 3)
    (delegate_log
       (run Sample.exclusive
          (host [install 1 (Some 7); install 2 None; cleanup 1; cleanup 4])
          (Sample.fresh [3]))).
Proof.
  apply (bridge_never_calls_on_unnamed_runtime Sample.exclusive
           [install 1 (Some 7); install 2 None; cleanup 1; cleanup 4]
           (Sample.fresh [3]) 3).
  repeat constructor; cbn; lia.
Defined.

(** ** Exchanging the implementation of [veloqrs] *)
Section Exchange.
Context {Runtime CallInvoker Local1 Local2 World1 World2 : Type}.
Variable impl1 : veloqrs.Impl Runtime CallInvoker World1.
Variable impl2 : veloqrs.Impl Runtime CallInvoker World2.

(** Worlds of the two implementations that stand for each other. *)
Variable alike : World1 -> World2 -> Prop.

(** From worlds alike, the same call gets the same status from both
    implementations and leaves worlds alike. *)
Hypothesis same_answers : forall c w1 w2,
  alike w1 w2 ->
  (veloqrs.perform impl1 c w1).1 = (veloqrs.perform impl2 c w2).1 /\
  alike (veloqrs.perform impl1 c w1).2 (veloqrs.perform impl2 c w2).2.

(** X4: the bridge shows no difference the implementations do not
    show.  If two implementations of [veloqrs] answer every call alike
    from worlds alike, then any session through the bridge returns the
    same statuses over either of them and leaves their worlds alike. *)
Theorem bridge_preserves_equivalence
    (ops : list (HostOp Runtime CallInvoker))
    (st1 : Process Local1 World1) (st2 : Process Local2 World2) :
  alike (world st1) (world st2) ->
  let o1 := run impl1 (host ops) st1 in
  let o2 := run impl2 (host ops) st2 in
  result o1 = result o2 /\ alike (world (final o1)) (world (final o2)).
Proof using same_answers.
  revert st1 st2. induction ops as [|op ops IH]; intros st1 st2 Hw; [done|].
  cbv zeta. rewrite !run_host_cons. cbv zeta. cbn [result final].
  destruct (same_answers (forwarded op) _ _ Hw) as [Hs Hw'].
  destruct (IH (Build_Process (bridge_state st1) _)
               (Build_Process (bridge_state st2) _) Hw') as [Hr Hf].
  by rewrite Hs, Hr.
Qed.

End Exchange.

Lemma exclusive_flag_same_answers
    (c : veloqrs.Call nat nat) (w : list nat) (f : nat -> bool) :
  (forall r, r ∈ w <-> f r = true) ->
  (veloqrs.perform Sample.exclusive c w).1 =
    (veloqrs.perform Sample.exclusive_by_flag c f).1 /\
  (forall r, r ∈ (veloqrs.perform Sample.exclusive c w).2 <->
             (veloqrs.perform Sample.exclusive_by_flag c f).2 r = true).
Proof.
  intros Hwf. destruct c as [r0 i | r0]; cbn.
  - destruct (f r0) eqn:Hf.
    + rewrite decide_True by by apply Hwf. done.
    + rewrite decide_False by (rewrite Hwf; congruence). cbn.
      split; [done|]. intros r. rewrite elem_of_cons, Hwf.
      case_decide; intuition congruence.
  - destruct (f r0) eqn:Hf.
    + rewrite decide_True by by apply Hwf. cbn.
      split; [done|]. intros r. rewrite list_elem_of_filter, Hwf.
      case_decide; intuition congruence.
    + rewrite decide_False by (rewrite Hwf; congruence). done.
Qed.

Lemma bridge_preserves_equivalence_witness :
  let ops := [install 1 (Some 7); install 1 (Some 7); cleanup 2;
              cleanup 1; install 1 None] in
  let o1 := run Sample.exclusive (host ops) (Sample.fresh [2]) in
  let o2 := run Sample.exclusive_by_flag (host ops)
              (Sample.fresh (fun r => bool_decide (r = 2))) in
  result o1 = result o2 /\
  (fun w f => forall r, r ∈ w <-> f r = true)
    (world (final o1)) (world (final o2)).
Proof.
  intros ops o1 o2.
  apply (bridge_preserves_equivalence
           Sample.exclusive Sample.exclusive_by_flag
           (fun w f => forall r, r ∈ w <-> f r = true)
           exclusive_flag_same_answers ops
           (Sample.fresh [2])
           (Sample.fresh (fun r => bool_decide (r = 2)))).
  intros r. cbn. rewrite list_elem_of_singleton, bool_decide_eq_true. done.
Defined.

(** ** The headers under the preprocessor *)
Section Headers.
Variable header : string -> gset string -> gset string.

Lemma veloq_h_guarded (defined : gset string) :
  "VELOQ_H" ∈ defined -> veloq_h header defined = ([], defined).
Proof. intros Hin. unfold veloq_h. by rewrite decide_True. Qed.

Lemma veloq_h_lines_NoDup (defined : gset string) :
  NoDup (veloq_h header defined).1.
Proof.
  unfold veloq_h, as_written. case_decide; cbn [fst]; [constructor|].
  repeat case_decide;
    (repeat (constructor;
       [rewrite ?elem_of_cons, ?elem_of_nil; intuition discriminate|]);
     constructor).
Qed.

Lemma veloq_h_defines_guard (defined : gset string) :
  (forall d, "VELOQ_H" ∈ d -> "VELOQ_H" ∈ header "veloqrs.h" d) ->
  "VELOQ_H" ∈ (veloq_h header defined).2.
Proof.
  intros Hkeep. unfold veloq_h. case_decide; cbn [snd]; [done|].
  apply Hkeep. set_solver.
Qed.

Lemma translation_unit_guarded (unit : list Directive)
    (defined : gset string) :
  (forall d, "VELOQ_H" ∈ d -> "VELOQ_H" ∈ header "veloqrs.h" d) ->
  Forall keeps_guard unit ->
  "VELOQ_H" ∈ defined ->
  (translation_unit header unit defined).1 = [].
Proof.
  intros Hkeep Hunit. revert defined.
  induction Hunit as [|d unit Hd _ IH]; intros defined Hin; [done|].
  destruct d as [|effect]; cbn [translation_unit].
  - rewrite veloq_h_guarded by done.
    specialize (IH defined Hin).
    by destruct (translation_unit header unit defined) as [lines2 d2];
      cbn in *; subst.
  - apply IH. by apply Hd.
Qed.

(** X5: the include guard of [veloq.h] works.  Provided neither the
    included [veloqrs.h] nor anything the translation unit does after
    its first inclusion of [veloq.h] undefines [VELOQ_H], the unit
    gets from all its inclusions of [veloq.h], however many follow
    and whatever stands between them, the lines of the first one and
    no line twice. *)
Theorem veloq_h_included_once (unit : list Directive)
    (defined : gset string) :
  (forall d, "VELOQ_H" ∈ d -> "VELOQ_H" ∈ header "veloqrs.h" d) ->
  Forall keeps_guard unit ->
  (translation_unit header (reach_veloq_h :: unit) defined).1 =
    (veloq_h header defined).1 /\
  NoDup (translation_unit header (reach_veloq_h :: unit) defined).1.
Proof.
  intros Hkeep Hunit.
  assert ((translation_unit header (reach_veloq_h :: unit) defined).1 =
          (veloq_h header defined).1) as Heq.
  { cbn [translation_unit].
    pose proof (veloq_h_defines_guard defined Hkeep) as Hin.
    destruct (veloq_h header defined) as [lines1 defined1]. cbn [snd] in Hin.
    pose proof (translation_unit_guarded unit defined1 Hkeep Hunit Hin) as Hnil.
    destruct (translation_unit header unit defined1) as [lines2 defined2].
    cbn in *. subst. by rewrite app_nil_r. }
  split; [done|]. rewrite Heq. apply veloq_h_lines_NoDup.
Qed.

(** X6: [Veloqrs.h] declares a usable interface in both
    architectures.  Whatever macros are defined on entry and whatever
    the imported files do to them, provided none of the identifiers of
    the interface line and of [@end] is a macro where these lines
    stand: the header is imports followed by one interface,
    [Veloqrs : NSObject], and [@end]; the interface adopts
    [RCTBridgeModule]; and for every protocol it adopts, the file named
    after that protocol is imported on an earlier line. *)
Theorem Veloqrs_h_interface_well_formed (defined : gset string) :
  Forall (fun i => i ∉ (Veloqrs_h header defined).2)
    ["interface"; "Veloqrs"; "NSObject"; "RCTBridgeModule";
     "RCTTurboModule"; "end"] ->
  exists imports protocols,
    (Veloqrs_h header defined).1 =
      imports ++ [interface "Veloqrs" "NSObject" protocols; end_] /\
    Forall (fun l => is_import l = true) imports /\
    "RCTBridgeModule" ∈ protocols /\
    Forall (fun P => exists dir, import_ (dir +:+ "/" +:+ P +:+ ".h") ∈ imports)
      protocols.
Proof.
  unfold Veloqrs_h.
  destruct (decide ("__cplusplus" ∈ defined)) as [Hcpp|Hcpp];
    match goal with
    | |- context [decide ("RCT_NEW_ARCH_ENABLED" ∈ ?d)] =>
        destruct (decide ("RCT_NEW_ARCH_ENABLED" ∈ d)) as [Hnew|Hnew]
    end; cbn [fst snd app]; rewrite !Forall_cons;
    intros (Hi & Hv & Hn & Hb & Ht & He & _); unfold as_written;
    rewrite !decide_True by (repeat (constructor; [assumption|]); constructor).
  - exists [import_ "cpp/veloqrs.h"; import_ "React/RCTBridgeModule.h";
            import_ "ReactCommon/RCTTurboModule.h"],
           ["RCTBridgeModule"; "RCTTurboModule"].
    split; [done|]. split; [by repeat constructor|]. split; [by left|].
    repeat constructor.
    + exists "React". cbn. set_solver.
    + exists "ReactCommon". cbn. set_solver.
  - exists [import_ "cpp/veloqrs.h"; import_ "React/RCTBridgeModule.h"],
           ["RCTBridgeModule"].
    split; [done|]. split; [by repeat constructor|]. split; [by left|].
    repeat constructor. exists "React". cbn. set_solver.
  - exists [import_ "React/RCTBridgeModule.h";
            import_ "ReactCommon/RCTTurboModule.h"],
           ["RCTBridgeModule"; "RCTTurboModule"].
    split; [done|]. split; [by repeat constructor|]. split; [by left|].
    repeat constructor.
    + exists "React". cbn. set_solver.
    + exists "ReactCommon". cbn. set_solver.
  - exists [import_ "React/RCTBridgeModule.h"], ["RCTBridgeModule"].
    split; [done|]. split; [by repeat constructor|]. split; [by left|].
    repeat constructor. exists "React". cbn. set_solver.
Qed.

End Headers.

Lemma veloq_h_included_once_witness :
  let unit := [elsewhere (fun d => {["OTHER_H"]} ∪ d); reach_veloq_h;
               elsewhere (fun d => d ∖ {["OTHER_H"]}); reach_veloq_h] in
  (translation_unit Sample.guarded_header (reach_veloq_h :: unit) ∅).1 =
    (veloq_h Sample.guarded_header ∅).1 /\
  NoDup (translation_unit Sample.guarded_header (reach_veloq_h :: unit) ∅).1.
Proof.
  apply (veloq_h_included_once Sample.guarded_header
           [elsewhere (fun d => {["OTHER_H"]} ∪ d); reach_veloq_h;
            elsewhere (fun d => d ∖ {["OTHER_H"]}); reach_veloq_h] ∅).
  - intros d Hd. unfold Sample.guarded_header. apply elem_of_union. by right.
  - repeat constructor; cbn; intros d Hd.
    + apply elem_of_union. by right.
    + apply elem_of_difference. split; [done|].
      rewrite elem_of_singleton. discriminate.
Defined.

(** What stands between two inclusions matters: with [#undef VELOQ_H]
    there, which does not keep the guard, the lines of [veloq.h] reach
    the translation unit twice. *)
Lemma undef_between_inclusions_repeats :
  let once := (veloq_h Sample.guarded_header ∅).1 in
  ~ keeps_guard (elsewhere Sample.undef_guard) /\
  length once = 4 /\
  (translation_unit Sample.guarded_header
     [reach_veloq_h; elsewhere Sample.undef_guard; reach_veloq_h] ∅).1 =
  once ++ once.
Proof.
  cbv zeta. split; [|split; by vm_compute].
  intros Hkeep.
  assert ("VELOQ_H" ∈ ({["VELOQ_H"]} : gset string)) as Hin
    by by apply elem_of_singleton.
  apply Hkeep in Hin. unfold Sample.undef_guard in Hin.
  apply elem_of_difference in Hin as [_ Hn]. by apply Hn, elem_of_singleton.
Qed.

Lemma Veloqrs_h_interface_well_formed_witness :
  exists imports protocols,
    (Veloqrs_h Sample.guarded_header
       ({["RCT_NEW_ARCH_ENABLED"]} ∪ {["__cplusplus"]})).1 =
      imports ++ [interface "Veloqrs" "NSObject" protocols; end_] /\
    Forall (fun l => is_import l = true) imports /\
    "RCTBridgeModule" ∈ protocols /\
    Forall (fun P => exists dir, import_ (dir +:+ "/" +:+ P +:+ ".h") ∈ imports)
      protocols.
Proof.
  apply (Veloqrs_h_interface_well_formed Sample.guarded_header
           ({["RCT_NEW_ARCH_ENABLED"]} ∪ {["__cplusplus"]})).
  apply (bool_decide_unpack _). by vm_compute.
Defined.
